(** * CDTV_PS2Mouse_Joy: PS/2 mouse + joystick to CDTV infrared converter

    A shallow embedding of [CDTV_PS2Mouse_Joy.ino] and the properties of its
    two protocol engines: the interrupt driven PS/2 receiver (ring buffer,
    frame decoder, mouse packet decoder, bounded command writer) and the
    timer driven CDTV infrared transmitter.

    Integers are modelled as [Z] with the C conversions written out: the
    sketch runs on an AVR, where [int] is 16 bits, [uint8_t] operands are
    promoted to [int] before arithmetic, and a store to a [uint8_t] keeps
    the value modulo 256. *)

From stdpp Require Import base numbers list.
Local Open Scope Z_scope.

(** [lia] with division and modulo by constants. *)
Ltac Zify.zify_post_hook ::= Z.to_euclidean_division_equations.

(** ** C integer conversions *)

(** Store to a [uint8_t]. *)
Definition u8 (x : Z) : Z := x mod 256.
(** Store to a [uint16_t]. *)
Definition u16 (x : Z) : Z := x mod 65536.
(** Conversion of a byte to [int8_t] (two's complement). *)
Definition i8 (x : Z) : Z := if u8 x <? 128 then u8 x else u8 x - 256.

(** The CDTV command codes the mouse decoder produces (lines 79-84). *)
Definition CDTV_CODE_MOUSE_A : Z := 0x080.
Definition CDTV_CODE_MOUSE_B : Z := 0x040.
Definition CDTV_CODE_MOUSE_RIGHT : Z := 0x004.
Definition CDTV_CODE_MOUSE_LEFT : Z := 0x008.

(** Exhaustive check of a boolean property of a byte. *)
Definition all_bytes (p : Z -> bool) : bool :=
  forallb (fun n => p (Z.of_nat n)) (seq 0 256).

(** * The PS/2 receive engine *)

Module PS2.

(** The globals [ps2_head], [ps2_tail], [ps2_recv_buffer] (lines 167-169)
    together with the function-local statics of [ps2_recv_isr]
    ([bitcount], [data], [last]) and of [ps2_get_state] ([ps2state]). *)
Record ps2 : Type := Ps2 {
  ps2_head : Z;
  ps2_tail : Z;
  ps2_recv_buffer : list Z;
  bitcount : Z;
  data : Z;
  last : Z;
  ps2state : Z
}.

Definition set_head (v : Z) (s : ps2) : ps2 :=
  Ps2 v (ps2_tail s) (ps2_recv_buffer s) (bitcount s) (data s) (last s) (ps2state s).
Definition set_tail (v : Z) (s : ps2) : ps2 :=
  Ps2 (ps2_head s) v (ps2_recv_buffer s) (bitcount s) (data s) (last s) (ps2state s).
Definition set_recv_buffer (v : list Z) (s : ps2) : ps2 :=
  Ps2 (ps2_head s) (ps2_tail s) v (bitcount s) (data s) (last s) (ps2state s).
Definition set_bitcount (v : Z) (s : ps2) : ps2 :=
  Ps2 (ps2_head s) (ps2_tail s) (ps2_recv_buffer s) v (data s) (last s) (ps2state s).
Definition set_data (v : Z) (s : ps2) : ps2 :=
  Ps2 (ps2_head s) (ps2_tail s) (ps2_recv_buffer s) (bitcount s) v (last s) (ps2state s).
Definition set_last (v : Z) (s : ps2) : ps2 :=
  Ps2 (ps2_head s) (ps2_tail s) (ps2_recv_buffer s) (bitcount s) (data s) v (ps2state s).
Definition set_ps2state (v : Z) (s : ps2) : ps2 :=
  Ps2 (ps2_head s) (ps2_tail s) (ps2_recv_buffer s) (bitcount s) (data s) (last s) v.

(** The state at reset: zero-initialised globals and statics. *)
Definition ps2_reset : ps2 := Ps2 0 0 (replicate 16 0) 0 0 0 0.

(** [ps2_recv_buffer[i]].  The array has 16 slots and every index the
    sketch uses is masked with [0xF]; a read outside the array is undefined
    in C and is given the value 0 here. *)
Definition buf_read (s : ps2) (i : Z) : Z :=
  default 0 (ps2_recv_buffer s !! Z.to_nat i).

(** Lines 171-175. *)
Definition ps2_available (s : ps2) : Z :=
  let avail := u8 (ps2_tail s - ps2_head s) in
  Z.land avail 0xF.

(** Lines 177-184: the returned byte and the state afterwards. *)
Definition ps2_get_data (s : ps2) : Z * ps2 :=
  if negb (ps2_tail s =? ps2_head s) then
    (buf_read s (ps2_head s), set_head (Z.land (ps2_head s + 1) 0xF) s)
  else (0, s).

(** Lines 186-213.  [now] is the value [millis()] returns at the edge and
    [PS2DATAPIN] the level [digitalRead] samples ([true] for HIGH).
    [curr - last] is computed in [int]: both bytes are promoted, so the
    difference ranges over -255..255 and does not wrap. *)
Definition ps2_recv_isr (now : Z) (PS2DATAPIN : bool) (s : ps2) : ps2 :=
  let curr := u8 now in
  let s := if curr - last s >? 5 then set_bitcount 0 s else s in
  let s := set_last curr s in
  let s := set_data (Z.shiftr (data s) 1) s in
  let s := if PS2DATAPIN then set_data (u8 (Z.lor (data s) 0x80)) s else s in
  let s := set_bitcount (u8 (bitcount s + 1)) s in
  if bitcount s =? 9 then
    let t_tail := Z.land (ps2_tail s + 1) 0xF in
    if negb (t_tail =? ps2_head s) then
      let s := set_recv_buffer
                 (<[Z.to_nat (ps2_tail s) := data s]> (ps2_recv_buffer s)) s in
      set_tail t_tail s
    else s
  else if bitcount s =? 11 then set_bitcount 0 s
  else s.

(** The body of the [while] loop of [ps2_get_state] (lines 266-283). *)
Definition ps2_get_state_body (s : ps2) : ps2 :=
  let '(ps2status, s) := ps2_get_data s in
  if Z.land ps2status 0xC =? 0x8 then
    let '(dx, s) := ps2_get_data s in
    let ps2dx := i8 dx in
    let '(dy, s) := ps2_get_data s in
    let ps2dy := i8 dy in
    let s := set_ps2state (u8 (Z.shiftl (Z.land ps2status 0x3) 6)) s in
    let s := if ps2dx >? 0 then set_ps2state (Z.lor (ps2state s) 0x4) s
             else if ps2dx <? 0 then set_ps2state (Z.lor (ps2state s) 0x8) s
             else s in
    let s := if ps2dy >? 0 then set_ps2state (Z.lor (ps2state s) 0x20) s
             else if ps2dy <? 0 then set_ps2state (Z.lor (ps2state s) 0x10) s
             else s in
    s
  else s.

(** The loop [while(ps2_available() >= 3)] (line 265); [None] when the
    fuel runs out before the loop condition becomes false. *)
Fixpoint ps2_get_state_loop (fuel : nat) (s : ps2) : option ps2 :=
  if ps2_available s >=? 3 then
    match fuel with
    | O => None
    | S fuel => ps2_get_state_loop fuel (ps2_get_state_body s)
    end
  else Some s.

(** Lines 260-287, run without an interrupt arriving in between: the
    returned bitmask and the state afterwards. *)
Definition ps2_get_state (fuel : nat) (s : ps2) : option (Z * ps2) :=
  let s := set_ps2state (Z.land (ps2state s) 0xC0) s in
  s' ← ps2_get_state_loop fuel s;
  Some (ps2state s', s').

(** States in which the indices are inside the array and every field holds
    a value of its C type.  All states reachable from [ps2_reset] are of
    this kind (theorem [wf_invariant]). *)
Definition is_byte (b : Z) : bool := (0 <=? b) && (b <? 256).

Definition wf (s : ps2) : bool :=
  (0 <=? ps2_head s) && (ps2_head s <? 16) &&
  (0 <=? ps2_tail s) && (ps2_tail s <? 16) &&
  (length (ps2_recv_buffer s) =? 16)%nat &&
  forallb is_byte (ps2_recv_buffer s) &&
  is_byte (bitcount s) && is_byte (data s) && is_byte (last s) &&
  is_byte (ps2state s).

(** The buffer is full when advancing the tail would reach the head. *)
Definition full (s : ps2) : Prop := Z.land (ps2_tail s + 1) 0xF = ps2_head s.

(** The part of the state the producer and the consumer share. *)
Definition ring (s : ps2) : Z * Z * list Z :=
  (ps2_head s, ps2_tail s, ps2_recv_buffer s).

(** ** What the device puts on the wire *)

(** [millis()] at uptime [t] milliseconds: an [unsigned long]. *)
Definition millis (t : Z) : Z := t mod 2 ^ 32.

(** The handler run on a sequence of falling clock edges, each given by
    its uptime and the level of the data line at that moment. *)
Definition recv_edges (edges : list (Z * bool)) (s : ps2) : ps2 :=
  fold_left (fun s e => ps2_recv_isr (millis e.1) e.2 s) edges s.

(** The 8 data bits of a byte, least significant first. *)
Definition byte_bits (b : Z) : list bool :=
  map (fun i => Z.testbit b (Z.of_nat i)) (seq 0 8).

(** The parity bit that makes the number of ones in data and parity odd. *)
Definition odd_parity (b : Z) : bool :=
  negb (fold_right xorb false (byte_bits b)).

(** The levels of one well-formed frame: start bit (low), data bits,
    parity, stop bit (high). *)
Definition frame_levels (b : Z) : list bool :=
  false :: byte_bits b ++ [odd_parity b; true].

(** Every edge of [ts] follows the previous one (the first follows [t])
    after at most [limit] milliseconds. *)
Fixpoint gaps_within (limit : Z) (t : Z) (ts : list Z) : Prop :=
  match ts with
  | [] => True
  | t' :: ts => 0 <= t' - t <= limit /\ gaps_within limit t' ts
  end.

(** What one edge does to the shift register (lines 197-200). *)
Definition shift_in (d : Z) (level : bool) : Z :=
  let d := Z.shiftr d 1 in
  if level then u8 (Z.lor d 0x80) else d.

(** The bit counter after the gap check of lines 192-194. *)
Definition watchdog (now : Z) (s : ps2) : Z :=
  if u8 now - last s >? 5 then 0 else bitcount s.

(** The bitmask lines 270-282 compute from an accepted packet. *)
Definition packet_flags (status dx dy : Z) : Z :=
  let st := u8 (Z.shiftl (Z.land status 0x3) 6) in
  let st := if i8 dx >? 0 then Z.lor st 0x4
            else if i8 dx <? 0 then Z.lor st 0x8 else st in
  if i8 dy >? 0 then Z.lor st 0x20
  else if i8 dy <? 0 then Z.lor st 0x10 else st.

(** ** Sample states *)

(** The receiver between frames with [bytes] waiting in slots 0, 1, ... *)
Definition holding (bytes : list Z) : ps2 :=
  Ps2 0 (Z.of_nat (length bytes))
      (bytes ++ replicate (16 - length bytes) 0) 0 0 0 0.

(** The receiver [n] edges into a frame, the last of them at uptime [t]. *)
Definition mid_frame (n : Z) (t : Z) (s : ps2) : ps2 :=
  set_last (u8 (millis t)) (set_bitcount n s).

(** ** The buffer as a queue *)

(** The bytes waiting in the buffer, oldest first: the slots from the head
    up to the tail. *)
Definition contents (s : ps2) : list Z :=
  map (fun k => buf_read s (Z.land (ps2_head s + Z.of_nat k) 0xF))
      (seq 0 (Z.to_nat (ps2_available s))).

(** [n] calls of [ps2_get_data] in a row: the bytes returned, in order. *)
Fixpoint read_all (n : nat) (s : ps2) : list Z * ps2 :=
  match n with
  | O => ([], s)
  | S n =>
      let '(b, s) := ps2_get_data s in
      let '(bs, s) := read_all n s in
      (b :: bs, s)
  end.

(** ** Frames as they may arrive *)

(** Eleven samples with any level on the start, parity and stop edge. *)
Definition raw_frame_levels (start : bool) (b : Z) (parity stop : bool)
  : list bool :=
  start :: byte_bits b ++ [parity; stop].

(** A frame on the wire: the byte it carries, the levels of its start,
    parity and stop edge, the uptime of its first edge and of the ten
    edges after it. *)
Record frame : Type := Frame {
  f_byte : Z;
  f_start : bool;
  f_parity : bool;
  f_stop : bool;
  f_time : Z;
  f_times : list Z
}.

Definition frame_edges (f : frame) : list (Z * bool) :=
  zip (f_time f :: f_times f)
      (raw_frame_levels (f_start f) (f_byte f) (f_parity f) (f_stop f)).

(** The frame carries a byte and its edges follow one another within
    5 ms. *)
Definition frame_ok (f : frame) : Prop :=
  0 <= f_byte f < 256 /\ length (f_times f) = 10%nat /\
  gaps_within 5 (f_time f) (f_times f).

(** The handler run on the edges of a sequence of frames. *)
Definition recv_frames (fs : list frame) (s : ps2) : ps2 :=
  fold_left (fun s f => recv_edges (frame_edges f) s) fs s.

(** ** Waiting for a byte *)

(** Store to an [unsigned long]. *)
Definition u32 (x : Z) : Z := x mod 2 ^ 32.

Section Polling.

(** [clock k] is what the [k]-th call of [millis()] made by
    [ps2_read_byte] returns, and [arrivals k] are the clock edges (uptime
    and data level) the interrupt handler serves before the [k]-th test of
    [ps2_available()].  An edge served between that test and the read of
    the byte only adds behind the byte read, so it is counted with the
    next arrivals. *)
Variable clock : nat -> Z.
Variable arrivals : nat -> list (Z * bool).

(** The state at the [k]-th test of [ps2_available()]. *)
Fixpoint state_at (k : nat) (s : ps2) : ps2 :=
  match k with
  | O => recv_edges (arrivals 0) s
  | S k' => recv_edges (arrivals k) (state_at k' s)
  end.

(** The loop of lines 218-222 from its [k]-th round on, then line 227;
    [None] when the fuel runs out first. *)
Fixpoint read_poll (fuel : nat) (k : nat) (start : Z) (s : ps2)
  : option (Z * ps2) :=
  let s := recv_edges (arrivals k) s in
  if negb (negb (ps2_available s =? 0)) then
    if u32 (clock (S k) - start) >? 500 then Some (0, s)
    else match fuel with
         | O => None
         | S fuel => read_poll fuel (S k) start s
         end
  else Some (ps2_get_data s).

(** Lines 215-228 (the serial debug output does not touch this state). *)
Definition ps2_read_byte (fuel : nat) (s : ps2) : option (Z * ps2) :=
  let start := clock 0 in
  read_poll fuel 0 start s.

End Polling.

End PS2.

(** * The PS/2 command writer *)

Module Writer.

Definition PS2CLKPIN : Z := 2.
Definition PS2DATAPIN : Z := 4.
(** Bit numbers of the external interrupt 0 in [EIMSK] and [EIFR]
    (ATmega328P register map). *)
Definition INT0 : Z := 0.
Definition INTF0 : Z := 0.
Definition HIGH : bool := true.
Definition LOW : bool := false.

(** The hardware the writer touches: direction and output latch of each
    pin, the external interrupt mask and flag registers, the time spent in
    [delayMicroseconds], and the number of [digitalRead] calls made. *)
Record hw : Type := Hw {
  pin_output : Z -> bool;
  pin_latch : Z -> bool;
  EIMSK : Z;
  EIFR : Z;
  delayed_us : Z;
  reads : Z
}.

(** Computations over the hardware that may run out of fuel. *)
Definition M (A : Type) : Type := hw -> option (A * hw).

#[global] Instance M_ret : MRet M := fun A a w => Some (a, w).
#[global] Instance M_bind : MBind M := fun A B f m w =>
  match m w with
  | Some (a, w') => f a w'
  | None => None
  end.

Definition out_of_fuel {A} : M A := fun _ => None.
Definition modify (f : hw -> hw) : M unit := fun w => Some (tt, f w).

Definition upd (f : Z -> bool) (pin : Z) (v : bool) : Z -> bool :=
  fun p => if p =? pin then v else f p.

Definition pinMode (pin : Z) (output : bool) : M unit :=
  modify (fun w => Hw (upd (pin_output w) pin output) (pin_latch w)
                      (EIMSK w) (EIFR w) (delayed_us w) (reads w)).
Definition digitalWrite (pin : Z) (v : bool) : M unit :=
  modify (fun w => Hw (pin_output w) (upd (pin_latch w) pin v)
                      (EIMSK w) (EIFR w) (delayed_us w) (reads w)).
Definition delayMicroseconds (us : Z) : M unit :=
  modify (fun w => Hw (pin_output w) (pin_latch w)
                      (EIMSK w) (EIFR w) (delayed_us w + us) (reads w)).
Definition set_EIMSK (f : Z -> Z) : M unit :=
  modify (fun w => Hw (pin_output w) (pin_latch w)
                      (f (EIMSK w)) (EIFR w) (delayed_us w) (reads w)).
Definition set_EIFR (f : Z -> Z) : M unit :=
  modify (fun w => Hw (pin_output w) (pin_latch w)
                      (EIMSK w) (f (EIFR w)) (delayed_us w) (reads w)).

Section Device.

(** What the attached device (or the absence of one) puts on the lines:
    [line k pin] is the level of [pin] at the [k]-th sample when the host
    is not driving it.  Nothing is assumed about it. *)
Variable line : Z -> Z -> bool.

(** Iteration budget given to each busy-wait of the model. *)
Variable fuel : nat.

(** A pin the host drives reads back its latch; a released pin shows what
    the device and the pull-up make of it.  Every call is counted. *)
Definition digitalRead (pin : Z) : M bool := fun w =>
  let v := if pin_output w pin then pin_latch w pin else line (reads w) pin in
  Some (v, Hw (pin_output w) (pin_latch w) (EIMSK w) (EIFR w)
              (delayed_us w) (reads w + 1)).

(** Lines 92-95. *)
Definition weak_pullup (pin : Z) : M unit :=
  pinMode pin false;; digitalWrite pin HIGH.

(** Lines 97-100. *)
Definition pull_down (pin : Z) : M unit :=
  digitalWrite pin LOW;; pinMode pin true.

(** The loop of line 104, [while((digitalRead(pin) != state) && cnt--);]:
    the pin is sampled, and when it differs from [state] the old value of
    [cnt] decides whether to go round again while [cnt] is decremented
    (modulo 2^16). *)
Fixpoint await_loop (n : nat) (pin : Z) (state : bool) (cnt : Z) : M unit :=
  match n with
  | O => out_of_fuel
  | S n =>
      v ← digitalRead pin;
      if negb (eqb v state) then
        if negb (cnt =? 0) then await_loop n pin state (u16 (cnt - 1))
        else mret tt
      else mret tt
  end.

(** Lines 102-105. *)
Definition await_pin_state (pin : Z) (state : bool) : M unit :=
  let cnt := 0xFFF in
  await_loop fuel pin state cnt.

(** The [for] loop of lines 127-140, [n] iterations left; returns the
    final [data] and [parity]. *)
Fixpoint write_bits (n : nat) (data parity : Z) : M (Z * Z) :=
  match n with
  | O => mret (data, parity)
  | S n =>
      (if negb (Z.land data 0x01 =? 0) then weak_pullup PS2DATAPIN
       else pull_down PS2DATAPIN);;
      await_pin_state PS2CLKPIN LOW;;
      await_pin_state PS2CLKPIN HIGH;;
      let parity := Z.lxor parity (Z.land data 0x01) in
      let data := Z.shiftr data 1 in
      write_bits n data parity
  end.

(** Lines 107-165. *)
Definition ps2_write_byte (data : Z) : M unit :=
  let parity := 1 in
  set_EIMSK (fun r => u8 (Z.land r (Z.lnot (Z.shiftl 1 INT0))));;
  pull_down PS2CLKPIN;;
  delayMicroseconds 200;;
  pull_down PS2DATAPIN;;
  delayMicroseconds 10;;
  weak_pullup PS2CLKPIN;;
  delayMicroseconds 10;;
  await_pin_state PS2CLKPIN LOW;;
  await_pin_state PS2CLKPIN HIGH;;
  '(data, parity) ← write_bits 8 data parity;
  (if negb (parity =? 0) then weak_pullup PS2DATAPIN
   else pull_down PS2DATAPIN);;
  await_pin_state PS2CLKPIN HIGH;;
  await_pin_state PS2CLKPIN LOW;;
  weak_pullup PS2DATAPIN;;
  await_pin_state PS2CLKPIN HIGH;;
  await_pin_state PS2CLKPIN LOW;;
  await_pin_state PS2CLKPIN HIGH;;
  await_pin_state PS2DATAPIN HIGH;;
  set_EIFR (fun r => u8 (Z.lor r (Z.shiftl 1 INTF0)));;
  set_EIMSK (fun r => u8 (Z.lor r (Z.shiftl 1 INT0))).

End Device.

(** [m] returns from every hardware state, after sampling pins at most [n]
    times. *)
Definition returns_within {A} (n : Z) (m : M A) : Prop :=
  forall w, exists a w',
    m w = Some (a, w') /\ reads w <= reads w' <= reads w + n.

(** The hardware after reset: all pins inputs without pull-up. *)
Definition hw_reset : hw := Hw (fun _ => false) (fun _ => false) 0 0 0 0.

End Writer.

(** * The CDTV infrared transmitter *)

Module IR.

(** [enum transmitstates] (lines 312-319). *)
Definition ir_idle : Z := 0.
Definition ir_start : Z := 1.
Definition ir_transmit : Z := 2.
Definition ir_end_pulse : Z := ir_transmit + 48.
Definition ir_stop : Z := ir_end_pulse + 1.
Definition ir_repeat : Z := ir_stop + 1.

(** Bit numbers in [TCCR1B] (ATmega328P register map): the clock select
    bits [CS12:CS10] and the waveform bit [WGM12].  The timer counts while
    the clock select bits are not all zero. *)
Definition CS10 : Z := 0.
Definition CS11 : Z := 1.
Definition CS12 : Z := 2.
Definition WGM12 : Z := 3.

(** Timer 1 counts the CPU clock divided by 8; at the 16 MHz the sketch is
    written for (comment on line 305) that is two ticks per microsecond. *)
Definition F_CPU : Z := 16000000.
Definition ticks_of_us (us : Z) : Z := us * (F_CPU / 8) / 1000000.

(** The globals [cdtv_ir_code] and [tx_state], the static [data] of the
    timer interrupt handler, the timer 1 registers the sketch programs,
    whether [IRDATAPIN] is an output (the 40 kHz carrier of timer 2 then
    reaches the LED) and the global interrupt enable flag. *)
Record tx : Type := Tx {
  cdtv_ir_code : Z;
  tx_state : Z;
  data : Z;
  OCR1A : Z;
  TCNT1 : Z;
  TCCR1B : Z;
  IRDATAPIN : bool;
  SREG_I : bool
}.

Definition set_cdtv_ir_code (v : Z) (s : tx) : tx :=
  Tx v (tx_state s) (data s) (OCR1A s) (TCNT1 s) (TCCR1B s) (IRDATAPIN s) (SREG_I s).
Definition set_tx_state (v : Z) (s : tx) : tx :=
  Tx (cdtv_ir_code s) v (data s) (OCR1A s) (TCNT1 s) (TCCR1B s) (IRDATAPIN s) (SREG_I s).
Definition set_data (v : Z) (s : tx) : tx :=
  Tx (cdtv_ir_code s) (tx_state s) v (OCR1A s) (TCNT1 s) (TCCR1B s) (IRDATAPIN s) (SREG_I s).
Definition set_OCR1A (v : Z) (s : tx) : tx :=
  Tx (cdtv_ir_code s) (tx_state s) (data s) v (TCNT1 s) (TCCR1B s) (IRDATAPIN s) (SREG_I s).
Definition set_TCNT1 (v : Z) (s : tx) : tx :=
  Tx (cdtv_ir_code s) (tx_state s) (data s) (OCR1A s) v (TCCR1B s) (IRDATAPIN s) (SREG_I s).
Definition set_TCCR1B (v : Z) (s : tx) : tx :=
  Tx (cdtv_ir_code s) (tx_state s) (data s) (OCR1A s) (TCNT1 s) v (IRDATAPIN s) (SREG_I s).
Definition set_IRDATAPIN (v : bool) (s : tx) : tx :=
  Tx (cdtv_ir_code s) (tx_state s) (data s) (OCR1A s) (TCNT1 s) (TCCR1B s) v (SREG_I s).
Definition set_SREG_I (v : bool) (s : tx) : tx :=
  Tx (cdtv_ir_code s) (tx_state s) (data s) (OCR1A s) (TCNT1 s) (TCCR1B s) (IRDATAPIN s) v.

(** Lines 290-291. *)
Definition IR_ENABLE (s : tx) : tx := set_IRDATAPIN true s.
Definition IR_DISABLE (s : tx) : tx := set_IRDATAPIN false s.

(** Lines 323-366: one run of [ISR(TIMER1_COMPA_vect)]. *)
Definition TIMER1_COMPA_vect (s : tx) : tx :=
  if tx_state s =? ir_start then
    let s := IR_DISABLE s in
    let s := set_data (cdtv_ir_code s) s in
    let s := set_OCR1A 9000 s in
    set_tx_state (u8 (tx_state s + 1)) s
  else if (tx_state s >=? ir_transmit) && (tx_state s <? ir_end_pulse) then
    let s :=
      if negb (Z.land (tx_state s) 0x1 =? 0) then
        let s := IR_DISABLE s in
        let s := if tx_state s =? ir_transmit + 25
                 then set_data (u16 (Z.lnot (data s))) s else s in
        let ss := u8 (Z.shiftr (tx_state s - ir_transmit) 1) in
        let ss := if ss >=? 12 then u8 (ss - 12) else ss in
        set_OCR1A (if negb (Z.land (Z.shiftr (data s) ss) 0x1 =? 0)
                   then 2400 else 800) s
      else
        let s := IR_ENABLE s in
        set_OCR1A 800 s in
    set_tx_state (u8 (tx_state s + 1)) s
  else if tx_state s =? ir_end_pulse then
    let s := IR_ENABLE s in
    let s := set_OCR1A 800 s in
    set_tx_state (u8 (tx_state s + 1)) s
  else if tx_state s =? ir_stop then
    let s := IR_DISABLE s in
    let s := set_TCCR1B (u8 (Z.land (TCCR1B s) (Z.lnot (Z.shiftl 1 CS11)))) s in
    set_tx_state ir_idle s
  else if tx_state s =? ir_repeat then
    let s := IR_DISABLE s in
    let s := set_OCR1A 4200 s in
    set_tx_state ir_end_pulse s
  else s.

(** The statements of the arming functions and of the timer 1 part of
    [cdtv_init_transmitter]; each is a single store as far as the timer
    interrupt is concerned. *)
Inductive stmt : Type :=
  | Set_cdtv_ir_code (code : Z)
  | Set_tx_state (v : Z)
  | Set_OCR1A (v : Z)
  | Set_TCNT1 (v : Z)
  | Set_TCCR1B (v : Z)
  | Or_TCCR1B (bit : Z)
  | Do_IR_ENABLE
  | Do_IR_DISABLE
  | Do_noInterrupts
  | Do_interrupts.

Definition exec (c : stmt) (s : tx) : tx :=
  match c with
  | Set_cdtv_ir_code code => set_cdtv_ir_code (u16 code) s
  | Set_tx_state v => set_tx_state (u8 v) s
  | Set_OCR1A v => set_OCR1A (u16 v) s
  | Set_TCNT1 v => set_TCNT1 (u16 v) s
  | Set_TCCR1B v => set_TCCR1B (u8 v) s
  | Or_TCCR1B bit => set_TCCR1B (u8 (Z.lor (TCCR1B s) (Z.shiftl 1 bit))) s
  | Do_IR_ENABLE => IR_ENABLE s
  | Do_IR_DISABLE => IR_DISABLE s
  | Do_noInterrupts => set_SREG_I false s
  | Do_interrupts => set_SREG_I true s
  end.

Definition run (body : list stmt) (s : tx) : tx :=
  fold_left (fun s c => exec c s) body s.

(** Lines 292-310, the statements that act on the modelled state (the
    timer 2 carrier set-up, [TCCR1A] and [TIMSK1] are written once here and
    never again). *)
Definition cdtv_init_transmitter_body : list stmt :=
  [ Do_IR_DISABLE;
    Do_noInterrupts;
    Set_TCCR1B 0;
    Set_TCNT1 0;
    Set_OCR1A 0xFFFF;
    Or_TCCR1B WGM12;
    Do_interrupts ].

Definition cdtv_init_transmitter (s : tx) : tx :=
  run cdtv_init_transmitter_body s.

(** Lines 368-379 (the serial debug output does not touch this state). *)
Definition cdtv_send_code_body (code : Z) : list stmt :=
  [ Set_cdtv_ir_code code;
    Set_tx_state ir_start;
    Set_OCR1A 18000;
    Set_TCNT1 0;
    Do_IR_ENABLE;
    Or_TCCR1B CS11 ].

Definition cdtv_send_code (code : Z) (s : tx) : tx :=
  run (cdtv_send_code_body code) s.

(** Lines 381-390. *)
Definition cdtv_send_repeat_body : list stmt :=
  [ Set_tx_state ir_repeat;
    Set_OCR1A 18000;
    Set_TCNT1 0;
    Do_IR_ENABLE;
    Or_TCCR1B CS11 ].

Definition cdtv_send_repeat (s : tx) : tx :=
  run cdtv_send_repeat_body s.

(** The timer counts, and so reaches its compare value, exactly when a
    clock source is selected. *)
Definition timer_running (s : tx) : bool :=
  negb (Z.land (TCCR1B s) 0x7 =? 0).

(** One phase of the output: whether the carrier is on the LED, and for
    how many timer ticks.  The length is taken to be the compare value
    programmed for the phase, as the constants of the sketch do (18000
    ticks for 9 ms). *)
Definition phase : Type := (bool * Z)%type.

Definition current_phase (s : tx) : phase := (IRDATAPIN s, OCR1A s).

(** The output from state [s] on, with the compare interrupt served at
    every match and nothing else writing the state: the current phase
    lasts until the match, the handler runs, and so on until the timer is
    stopped.  [None] when [fuel] phases do not reach that point. *)
Fixpoint pulse_train (fuel : nat) (s : tx) : option (list phase * tx) :=
  if timer_running s then
    match fuel with
    | O => None
    | S fuel =>
        '(l, s') ← pulse_train fuel (TIMER1_COMPA_vect s);
        Some (current_phase s :: l, s')
    end
  else Some ([], s).

(** An arming sequence during which the compare match falls right after
    its first [k] statements: when interrupts are enabled and the timer is
    counting, the counter is cleared by the match and the handler runs
    there; then the sequence goes on. *)
Definition run_preempted (k : nat) (body : list stmt) (s : tx) : tx :=
  let s := run (take k body) s in
  let s := if SREG_I s && timer_running s
           then TIMER1_COMPA_vect (set_TCNT1 0 s) else s in
  run (drop k body) s.

(** ** The frames as the protocol describes them (header comment, lines
    21-28), in microseconds *)

Definition carrier (us : Z) : phase := (true, ticks_of_us us).
Definition silence (us : Z) : phase := (false, ticks_of_us us).

(** One data bit: a 400 us pulse, then a 400 us pause for 0 or a 1200 us
    pause for 1. *)
Definition bit_cell (b : bool) : list phase :=
  [carrier 400; silence (if b then 1200 else 400)].

(** The 12 bits of a code, in the order they are sent (bit 0 first). *)
Definition code_bits (code : Z) : list bool :=
  map (fun i => Z.testbit code (Z.of_nat i)) (seq 0 12).

Definition code_frame (code : Z) : list phase :=
  [carrier 9000; silence 4500]
  ++ flat_map bit_cell (code_bits code)
  ++ flat_map bit_cell (map negb (code_bits code))
  ++ [carrier 400].

Definition repeat_frame : list phase :=
  [carrier 9000; silence 2100; carrier 400].

(** The [i]-th of the 24 bits on the wire: a code bit, then its inverse. *)
Definition sent_bit (code : Z) (i : Z) : bool :=
  if i <? 12 then Z.testbit code i else negb (Z.testbit code (i - 12)).

(** The bit cells from bit [i] on, then the end pulse. *)
Fixpoint cells_from (code : Z) (i : Z) (n : nat) : list phase :=
  match n with
  | O => [carrier 400]
  | S n => bit_cell (sent_bit code i) ++ cells_from code (i + 1) n
  end.

(** The register holds the code while its own bits are sent and the
    complement afterwards; the switch happens in the pause of bit 12. *)
Definition register_at (code : Z) (i : Z) : Z :=
  if i <=? 12 then code else u16 (Z.lnot code).

(** [CS11] is the only clock select bit in use: [CS10] and [CS12] are
    clear, as [cdtv_init_transmitter] leaves them. *)
Definition only_cs11 (s : tx) : Prop :=
  Z.testbit (TCCR1B s) CS10 = false /\ Z.testbit (TCCR1B s) CS12 = false.

(** ** Sample states *)

(** All registers zero, interrupts enabled. *)
Definition tx_reset : tx := Tx 0 0 0 0 0 0 false true.

(** Idle after initialisation. *)
Definition tx_idle : tx := cdtv_init_transmitter tx_reset.

(** In the middle of the frame of code 0x004: the pulse of the fifth bit
    is on the air, one timer tick before its end. *)
Definition tx_midflight : tx :=
  Tx 0x004 (ir_transmit + 9) 0x004 800 799
     (Z.lor (Z.shiftl 1 WGM12) (Z.shiftl 1 CS11)) true true.

End IR.

(** * Properties *)

Lemma u8_range x : 0 <= u8 x < 256.
Proof. unfold u8. lia. Qed.

Lemma u8_id x : 0 <= x < 256 -> u8 x = x.
Proof. unfold u8. lia. Qed.

Lemma u16_range x : 0 <= u16 x < 65536.
Proof. unfold u16. lia. Qed.

Lemma land_0xF x : Z.land x 0xF = x mod 16.
Proof. exact (Z.land_ones x 4 ltac:(lia)). Qed.

Lemma all_bytes_spec (p : Z -> bool) :
  all_bytes p = true -> forall b, 0 <= b < 256 -> p b = true.
Proof.
  unfold all_bytes. rewrite forallb_forall. intros Hall b Hb.
  rewrite <- (Z2Nat.id b) by lia. apply Hall.
  apply in_seq. lia.
Qed.

Module PS2Facts.
Import PS2.

(** ** Well-formed states *)

Lemma is_byte_spec b : is_byte b = true <-> 0 <= b < 256.
Proof. unfold is_byte. rewrite andb_true_iff, Z.leb_le, Z.ltb_lt. tauto. Qed.

Record wf_facts (s : ps2) : Prop := WfFacts {
  wf_head : 0 <= ps2_head s < 16;
  wf_tail : 0 <= ps2_tail s < 16;
  wf_length : length (ps2_recv_buffer s) = 16%nat;
  wf_buffer : forall b, In b (ps2_recv_buffer s) -> 0 <= b < 256;
  wf_bitcount : 0 <= bitcount s < 256;
  wf_data : 0 <= data s < 256;
  wf_last : 0 <= last s < 256;
  wf_ps2state : 0 <= ps2state s < 256
}.

Lemma wf_spec s : wf s = true <-> wf_facts s.
Proof.
  unfold wf. rewrite !andb_true_iff, !is_byte_spec, !Z.leb_le, !Z.ltb_lt,
    Nat.eqb_eq, forallb_forall.
  setoid_rewrite is_byte_spec.
  split.
  - intros H. constructor; tauto.
  - intros []. tauto.
Qed.

(** ** The ring buffer and the receive handler *)

Lemma ps2_available_mod s : ps2_available s = (ps2_tail s - ps2_head s) mod 16.
Proof. unfold ps2_available, u8. rewrite land_0xF. lia. Qed.

Lemma recv_isr_unfold now lvl s :
  ps2_recv_isr now lvl s =
    let c := u8 (watchdog now s + 1) in
    let d := shift_in (data s) lvl in
    if c =? 9 then
      if negb (Z.land (ps2_tail s + 1) 0xF =? ps2_head s) then
        Ps2 (ps2_head s) (Z.land (ps2_tail s + 1) 0xF)
            (<[Z.to_nat (ps2_tail s) := d]> (ps2_recv_buffer s))
            c d (u8 now) (ps2state s)
      else Ps2 (ps2_head s) (ps2_tail s) (ps2_recv_buffer s) c d (u8 now) (ps2state s)
    else if c =? 11 then
      Ps2 (ps2_head s) (ps2_tail s) (ps2_recv_buffer s) 0 d (u8 now) (ps2state s)
    else Ps2 (ps2_head s) (ps2_tail s) (ps2_recv_buffer s) c d (u8 now) (ps2state s).
Proof.
  unfold ps2_recv_isr, watchdog, shift_in.
  destruct s as [h t buf bc d l st]; simpl.
  destruct (u8 now - l >? 5), lvl; simpl;
  repeat match goal with |- context [if ?b then _ else _] => destruct b; simpl end; reflexivity.
Qed.

Lemma isr_shift now lvl s :
  u8 now - last s <= 5 \/ bitcount s = 0 ->
  0 <= bitcount s < 8 \/ bitcount s = 9 ->
  ps2_recv_isr now lvl s =
    Ps2 (ps2_head s) (ps2_tail s) (ps2_recv_buffer s) (bitcount s + 1)
        (shift_in (data s) lvl) (u8 now) (ps2state s).
Proof.
  intros Hgap Hr. rewrite recv_isr_unfold. cbv zeta.
  assert (Hw : u8 (watchdog now s + 1) = bitcount s + 1).
  { unfold watchdog. destruct (Z.gtb_spec (u8 now - last s) 5);
      rewrite u8_id; lia. }
  rewrite Hw.
  destruct (Z.eqb_spec (bitcount s + 1) 9); [lia|].
  destruct (Z.eqb_spec (bitcount s + 1) 11); [lia|]. reflexivity.
Qed.

Lemma isr_push now lvl s :
  u8 now - last s <= 5 -> bitcount s = 8 -> ~ full s ->
  ps2_recv_isr now lvl s =
    Ps2 (ps2_head s) (Z.land (ps2_tail s + 1) 0xF)
        (<[Z.to_nat (ps2_tail s) := shift_in (data s) lvl]> (ps2_recv_buffer s))
        9 (shift_in (data s) lvl) (u8 now) (ps2state s).
Proof.
  intros Hgap Hc Hfull. rewrite recv_isr_unfold. cbv zeta.
  assert (Hw : u8 (watchdog now s + 1) = 9).
  { unfold watchdog. destruct (Z.gtb_spec (u8 now - last s) 5); [lia|]. rewrite Hc. reflexivity. }
  rewrite Hw. simpl (9 =? 9).
  unfold full in Hfull. destruct (Z.eqb_spec (Z.land (ps2_tail s + 1) 15) (ps2_head s)); [done|]. reflexivity.
Qed.

Lemma isr_stop now lvl s :
  u8 now - last s <= 5 -> bitcount s = 10 ->
  ps2_recv_isr now lvl s =
    Ps2 (ps2_head s) (ps2_tail s) (ps2_recv_buffer s) 0
        (shift_in (data s) lvl) (u8 now) (ps2state s).
Proof.
  intros Hgap Hc. rewrite recv_isr_unfold. cbv zeta.
  assert (Hw : u8 (watchdog now s + 1) = 11).
  { unfold watchdog. destruct (Z.gtb_spec (u8 now - last s) 5); [lia|]. rewrite Hc. reflexivity. }
  rewrite Hw. reflexivity.
Qed.

(** A gap of at most 5 ms never trips the watchdog. *)
Lemma short_gap t t' : 0 <= t' - t <= 5 -> u8 (millis t') - u8 (millis t) <= 5.
Proof. unfold u8, millis. change (2 ^ 32) with 4294967296. lia. Qed.

Lemma shift_frame_check :
  all_bytes (fun d => all_bytes (fun b =>
    fold_left shift_in (false :: byte_bits b) d =? b)) = true.
Proof. vm_compute. reflexivity. Qed.

Lemma shift_frame d b :
  0 <= d < 256 -> 0 <= b < 256 ->
  fold_left shift_in (false :: byte_bits b) d = b.
Proof.
  intros Hd Hb. apply Z.eqb_eq.
  exact (all_bytes_spec _ (all_bytes_spec _ shift_frame_check d Hd) b Hb).
Qed.

Lemma available_after_push s :
  wf s = true -> ~ full s ->
  (Z.land (ps2_tail s + 1) 0xF - ps2_head s) mod 16 = ps2_available s + 1.
Proof.
  intros [] %wf_spec Hfull. unfold full in Hfull. rewrite ps2_available_mod.
  rewrite land_0xF in *. lia.
Qed.

Ltac isr_side :=
  unfold full;
  cbn [bitcount last ps2_head ps2_tail ps2_recv_buffer data ps2state];
  first [assumption | lia | left; assumption | left; lia | right; lia ].

Ltac isr_step lem :=
  match goal with
  | |- context [ps2_recv_isr ?n ?l (Ps2 ?h ?t ?bu ?c ?d ?la ?st)] =>
      rewrite (lem n l (Ps2 h t bu c d la st)) by isr_side;
      cbn [bitcount last ps2_head ps2_tail ps2_recv_buffer data ps2state]
  end.

(** The first edge of a frame: when the gap check leaves the count at 0
    (it was 0 already, or the check fired) the sample is counted as bit 1. *)
Lemma isr_first_bit now lvl s :
  watchdog now s = 0 ->
  ps2_recv_isr now lvl s =
    Ps2 (ps2_head s) (ps2_tail s) (ps2_recv_buffer s) 1
        (shift_in (data s) lvl) (u8 now) (ps2state s).
Proof.
  intros Hw. rewrite recv_isr_unfold. cbv zeta. rewrite Hw. reflexivity.
Qed.

(** A frame that starts with the count at 0 after the gap check. *)
Lemma frame_run (b : Z) (s : ps2) (t0 : Z) (ts : list Z) :
  0 <= b < 256 -> wf s = true -> watchdog (millis t0) s = 0 -> ~ full s ->
  length ts = 10%nat -> gaps_within 5 t0 ts ->
  let edges := zip (t0 :: ts) (frame_levels b) in
  let pushed := (ps2_head s, Z.land (ps2_tail s + 1) 0xF,
                 <[Z.to_nat (ps2_tail s) := b]> (ps2_recv_buffer s)) in
  ring (recv_edges (take 8 edges) s) = ring s /\
  ring (recv_edges (take 9 edges) s) = pushed /\
  ring (recv_edges edges s) = pushed /\
  bitcount (recv_edges edges s) = 0 /\
  ps2_available (recv_edges edges s) = ps2_available s + 1 /\
  buf_read (recv_edges edges s) (ps2_tail s) = b.
Proof.
  intros Hb Hwf Hc Hfull Hlen Hgaps.
  do 10 (destruct ts as [|? ts]; [discriminate Hlen|]).
  destruct ts; [clear Hlen|discriminate Hlen].
  cbn [gaps_within] in Hgaps.
  repeat match goal with H : _ /\ _ |- _ => destruct H as [?%short_gap H] end.
  clear Hgaps.
  pose proof (proj1 (wf_spec s) Hwf) as [].
  assert (Hd := shift_frame (data s) b ltac:(assumption) Hb).
  cbn [fold_left] in Hd.
  unfold frame_levels, byte_bits. cbn [seq map app zip zip_with].
  cbv zeta. unfold recv_edges. cbn [take fold_left fst snd].
  rewrite (isr_first_bit _ _ s) by assumption.
  do 7 isr_step isr_shift.
  isr_step isr_push. isr_step isr_shift. isr_step isr_stop.
  unfold byte_bits in Hd. cbn [seq map fold_left] in Hd. rewrite Hd.
  unfold ring, ps2_available, buf_read.
  cbn [bitcount last ps2_head ps2_tail ps2_recv_buffer data ps2state].
  repeat split.
  - fold (ps2_available s). rewrite <- (available_after_push s Hwf Hfull).
    unfold u8. rewrite !land_0xF. lia.
  - rewrite list_lookup_insert_eq by lia. reflexivity.
Qed.

(** C1.  One well-formed frame (start bit, the 8 bits of [b] least
    significant first, odd parity, stop bit) arriving on 11 edges that follow
    one another within 5 ms, with the bit counter at 0 and room in the
    buffer: the buffer is untouched during the first 8 edges, the 9th edge
    stores [b] at the tail and advances the tail, nothing else is stored,
    exactly one more byte is available afterwards, and the bit counter is
    back at 0 after the 11th edge. *)
Theorem frame_received (b : Z) (s : ps2) (t0 : Z) (ts : list Z) :
  0 <= b < 256 -> wf s = true -> bitcount s = 0 -> ~ full s ->
  length ts = 10%nat -> gaps_within 5 t0 ts ->
  let edges := zip (t0 :: ts) (frame_levels b) in
  let pushed := (ps2_head s, Z.land (ps2_tail s + 1) 0xF,
                 <[Z.to_nat (ps2_tail s) := b]> (ps2_recv_buffer s)) in
  ring (recv_edges (take 8 edges) s) = ring s /\
  ring (recv_edges (take 9 edges) s) = pushed /\
  ring (recv_edges edges s) = pushed /\
  bitcount (recv_edges edges s) = 0 /\
  ps2_available (recv_edges edges s) = ps2_available s + 1 /\
  buf_read (recv_edges edges s) (ps2_tail s) = b.
Proof.
  intros Hb Hwf Hc Hfull Hlen Hgaps. apply frame_run; try assumption.
  unfold watchdog. rewrite Hc. by destruct (_ >? _).
Qed.

(** X3.  Resynchronisation, as far as the handler sees the gap: when the
    low byte of [millis()] at the start bit exceeds the one stored at the
    previous edge by more than 5, the frame is decoded whatever the bit
    counter was, so a partly received frame before the gap is discarded. *)
Theorem frame_after_gap (b : Z) (s : ps2) (t0 : Z) (ts : list Z) :
  0 <= b < 256 -> wf s = true -> u8 (millis t0) - last s > 5 -> ~ full s ->
  length ts = 10%nat -> gaps_within 5 t0 ts ->
  let edges := zip (t0 :: ts) (frame_levels b) in
  ring (recv_edges edges s) =
    (ps2_head s, Z.land (ps2_tail s + 1) 0xF,
     <[Z.to_nat (ps2_tail s) := b]> (ps2_recv_buffer s)) /\
  bitcount (recv_edges edges s) = 0.
Proof.
  intros Hb Hwf Hgap Hfull Hlen Hgaps.
  destruct (frame_run b s t0 ts) as (_ & _ & Hring & Hcount & _); try assumption.
  - unfold watchdog. destruct (Z.gtb_spec (u8 (millis t0) - last s) 5); [done|lia].
  - cbv zeta. split; assumption.
Qed.

(** ** Reading the ring buffer *)

Lemma available_nonzero s :
  wf s = true -> (ps2_available s <> 0 <-> ps2_tail s <> ps2_head s).
Proof. intros [] %wf_spec. rewrite ps2_available_mod. lia. Qed.

Lemma get_data_nonempty s :
  ps2_tail s <> ps2_head s ->
  ps2_get_data s =
    (buf_read s (ps2_head s), set_head (Z.land (ps2_head s + 1) 0xF) s).
Proof.
  intros Hne. unfold ps2_get_data.
  destruct (Z.eqb_spec (ps2_tail s) (ps2_head s)); [done|reflexivity].
Qed.

Lemma available_set_head s :
  wf s = true -> ps2_available s <> 0 ->
  ps2_available (set_head (Z.land (ps2_head s + 1) 0xF) s) = ps2_available s - 1.
Proof.
  intros [] %wf_spec. rewrite !ps2_available_mod. cbn [set_head ps2_head ps2_tail].
  rewrite land_0xF. lia.
Qed.

Lemma wf_set_head s v : wf s = true -> 0 <= v < 16 -> wf (set_head v s) = true.
Proof.
  rewrite !wf_spec. intros [] Hv. constructor; cbn [set_head ps2_head ps2_tail
    ps2_recv_buffer bitcount data last ps2state]; auto.
Qed.

Lemma wf_set_ps2state s v :
  wf s = true -> 0 <= v < 256 -> wf (set_ps2state v s) = true.
Proof.
  rewrite !wf_spec. intros [] Hv. constructor; cbn [set_ps2state ps2_head ps2_tail
    ps2_recv_buffer bitcount data last ps2state]; auto.
Qed.

Lemma available_set_ps2state s v :
  ps2_available (set_ps2state v s) = ps2_available s.
Proof. reflexivity. Qed.

(** A successful read: the byte at the head, the head advanced by one slot,
    one byte fewer available. *)
Lemma get_data_take s :
  wf s = true -> ps2_available s <> 0 ->
  let s' := set_head (Z.land (ps2_head s + 1) 0xF) s in
  ps2_get_data s = (buf_read s (ps2_head s), s') /\
  wf s' = true /\ ps2_available s' = ps2_available s - 1.
Proof.
  intros Hwf Hav. cbv zeta. split; [|split].
  - apply get_data_nonempty. by apply available_nonzero.
  - apply wf_set_head; [done|]. rewrite land_0xF. lia.
  - by apply available_set_head.
Qed.

Lemma land_succ_0xF h k : Z.land (Z.land (h + k) 0xF + 1) 0xF = Z.land (h + (k + 1)) 0xF.
Proof. rewrite !land_0xF. lia. Qed.

Lemma byte_ops_check :
  all_bytes (fun a =>
    is_byte (Z.land a 0xC0) && is_byte (Z.lor a 0x4) && is_byte (Z.lor a 0x8)
    && is_byte (Z.lor a 0x10) && is_byte (Z.lor a 0x20)
    && is_byte (shift_in a true) && is_byte (shift_in a false)) = true.
Proof. vm_compute. reflexivity. Qed.

Lemma byte_ops a :
  0 <= a < 256 ->
  0 <= Z.land a 0xC0 < 256 /\ 0 <= Z.lor a 0x4 < 256 /\ 0 <= Z.lor a 0x8 < 256
  /\ 0 <= Z.lor a 0x10 < 256 /\ 0 <= Z.lor a 0x20 < 256
  /\ 0 <= shift_in a true < 256 /\ 0 <= shift_in a false < 256.
Proof.
  intros Ha. pose proof (all_bytes_spec _ byte_ops_check a Ha) as H.
  rewrite !andb_true_iff, !is_byte_spec in H. tauto.
Qed.

Ltac psimpl :=
  cbn [set_head set_ps2state negb ps2_head ps2_tail
       ps2_recv_buffer bitcount data last ps2state].

Lemma body_aligned s :
  wf s = true -> ps2_available s >= 3 ->
  Z.land (buf_read s (ps2_head s)) 0xC = 0x8 ->
  ps2_get_state_body s =
    set_ps2state
      (packet_flags (buf_read s (ps2_head s))
                    (buf_read s (Z.land (ps2_head s + 1) 0xF))
                    (buf_read s (Z.land (ps2_head s + 2) 0xF)))
      (set_head (Z.land (ps2_head s + 3) 0xF) s).
Proof.
  intros [] %wf_spec Hav Hal. rewrite ps2_available_mod in Hav.
  destruct s as [h t buf bc d l st].
  unfold buf_read in *.
  cbn [ps2_head ps2_tail ps2_recv_buffer bitcount data last ps2state] in *.
  assert (E1 : (t =? h) = false) by (apply Z.eqb_neq; lia).
  assert (E2 : (t =? Z.land (h + 1) 0xF) = false)
    by (apply Z.eqb_neq; rewrite land_0xF; lia).
  assert (E3 : (t =? Z.land (h + 2) 0xF) = false)
    by (apply Z.eqb_neq; rewrite land_0xF; lia).
  assert (L2 : Z.land (Z.land (h + 1) 0xF + 1) 0xF = Z.land (h + 2) 0xF)
    by (rewrite !land_0xF; lia).
  assert (L3 : Z.land (Z.land (h + 2) 0xF + 1) 0xF = Z.land (h + 3) 0xF)
    by (rewrite !land_0xF; lia).
  unfold ps2_get_state_body, ps2_get_data, buf_read, packet_flags.
  psimpl. rewrite E1. psimpl. rewrite Hal. cbn [Z.eqb Pos.eqb]. psimpl.
  rewrite E2. psimpl. rewrite L2, E3. psimpl. rewrite L3.
  repeat match goal with
         | |- context [if ?b then _ else _] => destruct b
         end; reflexivity.
Qed.

Lemma body_misaligned s :
  wf s = true -> ps2_available s >= 3 ->
  Z.land (buf_read s (ps2_head s)) 0xC <> 0x8 ->
  ps2_get_state_body s = set_head (Z.land (ps2_head s + 1) 0xF) s.
Proof.
  intros Hwf Hav Hal. unfold ps2_get_state_body.
  destruct (get_data_take s Hwf ltac:(lia)) as (-> & _ & _).
  destruct (Z.eqb_spec (Z.land (buf_read s (ps2_head s)) 0xC) 0x8); [done|reflexivity].
Qed.

Lemma get_state_loop_done fuel s :
  ps2_available s < 3 -> ps2_get_state_loop fuel s = Some s.
Proof.
  intros Hav. destruct fuel; cbn [ps2_get_state_loop];
    destruct (Z.geb_spec (ps2_available s) 3); (lia || reflexivity).
Qed.

Lemma get_state_loop_step fuel s :
  ps2_available s >= 3 ->
  ps2_get_state_loop (S fuel) s = ps2_get_state_loop fuel (ps2_get_state_body s).
Proof.
  intros Hav. cbn [ps2_get_state_loop].
  destruct (Z.geb_spec (ps2_available s) 3); (lia || reflexivity).
Qed.


Lemma packet_flags_byte status dx dy : 0 <= packet_flags status dx dy < 256.
Proof.
  unfold packet_flags. cbv zeta.
  pose proof (u8_range (Z.shiftl (Z.land status 3) 6)) as H0.
  set (st0 := u8 _) in *.
  assert (H1 : 0 <= (if i8 dx >? 0 then Z.lor st0 4
                     else if i8 dx <? 0 then Z.lor st0 8 else st0) < 256).
  { destruct (byte_ops st0 H0) as (_ & ? & ? & _).
    destruct (i8 dx >? 0); [done|]. by destruct (i8 dx <? 0). }
  set (st1 := if i8 dx >? 0 then _ else _) in *.
  destruct (byte_ops st1 H1) as (_ & _ & _ & ? & ? & _).
  destruct (i8 dy >? 0); [done|]. by destruct (i8 dy <? 0).
Qed.

(** One round of the loop keeps the state well formed and consumes one or
    three bytes. *)
Lemma body_progress s :
  wf s = true -> ps2_available s >= 3 ->
  wf (ps2_get_state_body s) = true /\
  ps2_available s - 3 <= ps2_available (ps2_get_state_body s) < ps2_available s.
Proof.
  intros Hwf Hav.
  destruct (Z.eq_dec (Z.land (buf_read s (ps2_head s)) 0xC) 0x8) as [Hal|Hal].
  - rewrite body_aligned by done. split.
    + apply wf_set_ps2state; [|apply packet_flags_byte].
      apply wf_set_head; [done|rewrite land_0xF; lia].
    + rewrite available_set_ps2state. apply wf_spec in Hwf as [].
      rewrite !ps2_available_mod in *. cbn [set_head ps2_head ps2_tail].
      rewrite land_0xF. lia.
  - rewrite body_misaligned by done.
    destruct (get_data_take s Hwf ltac:(lia)) as (_ & Hwf1 & Hav1).
    split; [done|lia].
Qed.

(** The loop of [ps2_get_state] ends: 13 rounds are always enough. *)
Lemma get_state_loop_terminates fuel s :
  wf s = true -> (ps2_available s < Z.of_nat fuel + 3) ->
  exists s', ps2_get_state_loop fuel s = Some s' /\ wf s' = true /\
             ps2_available s' < 3.
Proof.
  revert s. induction fuel as [|fuel IH]; intros s Hwf Hav.
  - exists s. rewrite get_state_loop_done by lia. split; [done|]. split; [done|lia].
  - destruct (Z_lt_ge_dec (ps2_available s) 3) as [Hlt|Hge].
    + exists s. by rewrite get_state_loop_done.
    + rewrite get_state_loop_step by done.
      destruct (body_progress s Hwf Hge) as [Hwf' Hav'].
      apply IH; [done|lia].
Qed.

Lemma ps2_available_bound s : 0 <= ps2_available s <= 15.
Proof. rewrite ps2_available_mod. lia. Qed.

Lemma get_state_terminates fuel s :
  wf s = true -> (13 <= fuel)%nat ->
  exists r s', ps2_get_state fuel s = Some (r, s') /\ wf s' = true /\
               ps2_available s' < 3.
Proof.
  intros Hwf Hfuel. unfold ps2_get_state. cbv zeta.
  destruct (get_state_loop_terminates fuel (set_ps2state (Z.land (ps2state s) 0xC0) s))
    as (s' & -> & Hwf' & Hav').
  - apply wf_set_ps2state; [done|]. apply wf_spec in Hwf as []. by apply byte_ops.
  - rewrite available_set_ps2state. pose proof (ps2_available_bound s). lia.
  - cbn. eauto.
Qed.

(** C8, as the code has it.  A first byte whose alignment bits do not
    match is consumed alone: the loop body advances the head by one slot and
    changes nothing else, and the call returns what it would have returned
    had the byte never been in the buffer.  The two bytes after it are not
    consumed with it; each is examined as a status byte in turn. *)
Theorem misaligned_byte_dropped (s : ps2) (fuel : nat) :
  wf s = true ->
  ps2_available s >= 3 ->
  Z.land (buf_read s (ps2_head s)) 0xC <> 0x8 ->
  let s1 := set_head (Z.land (ps2_head s + 1) 0xF) s in
  ps2_get_state_body s = s1 /\
  ps2_available s1 = ps2_available s - 1 /\
  ps2_get_state (S fuel) s = ps2_get_state fuel s1.
Proof.
  intros Hwf Hav Hal. cbv zeta.
  split; [by apply body_misaligned|].
  split; [apply available_set_head; [done|lia]|].
  unfold ps2_get_state. cbv zeta.
  rewrite get_state_loop_step by (rewrite available_set_ps2state; lia).
  rewrite body_misaligned; [reflexivity| |rewrite available_set_ps2state; lia|exact Hal].
  apply wf_set_ps2state; [done|]. apply wf_spec in Hwf as []. by apply byte_ops.
Qed.

(** C10.  On an empty buffer (head equals tail) [ps2_get_data] returns 0
    and leaves the whole state as it was; and 0 is also what it returns for
    a received zero byte, so the value alone does not tell the two apart. *)
Theorem get_data_on_empty_buffer :
  (forall s, ps2_head s = ps2_tail s -> ps2_get_data s = (0, s)) /\
  (exists s, wf s = true /\ ps2_head s <> ps2_tail s /\ (ps2_get_data s).1 = 0).
Proof.
  split.
  - intros s Heq. unfold ps2_get_data. rewrite Heq, Z.eqb_refl. reflexivity.
  - exists (set_tail 1 ps2_reset). split; [reflexivity|]. split; [|reflexivity].
    cbn. lia.
Qed.

(** C3.  [ps2_available] never exceeds 15, and when the buffer is full
    (the advanced tail would equal the head) an invocation of the handler,
    in particular the one that completes a byte, leaves head, tail and
    buffer contents as they were: the oldest entry stays, the new byte is
    the one lost. *)
Theorem ring_capacity_and_overflow (s : ps2) :
  ps2_available s <= 15 /\
  (full s -> forall now level,
     ring (ps2_recv_isr now level s) = ring s /\
     buf_read (ps2_recv_isr now level s) (ps2_head s) = buf_read s (ps2_head s)).
Proof.
  split; [apply ps2_available_bound|].
  intros Hfull now level. unfold full in Hfull.
  assert (Hring : ring (ps2_recv_isr now level s) = ring s).
  { rewrite recv_isr_unfold. cbv zeta. rewrite Hfull, Z.eqb_refl. cbn [negb].
    repeat match goal with
           | |- context [if ?b then _ else _] => destruct b
           end; reflexivity. }
  split; [done|].
  unfold buf_read. unfold ring in Hring. congruence.
Qed.

(** ** Well-formedness is an invariant *)

Lemma wf_reset : wf ps2_reset = true.
Proof. reflexivity. Qed.

Lemma In_insert (l : list Z) i x b : In b (<[i:=x]> l) -> b = x \/ In b l.
Proof.
  revert i. induction l as [|a l IH]; intros [|i]; cbn; try tauto.
  - intros [->|H]; tauto.
  - intros [->|H]; [tauto|]. destruct (IH _ H); tauto.
Qed.

Lemma wf_recv_isr now level s :
  wf s = true -> wf (ps2_recv_isr now level s) = true.
Proof.
  rewrite !wf_spec. intros [].
  assert (Hd : 0 <= shift_in (data s) level < 256).
  { destruct (byte_ops (data s)) as (_ & _ & _ & _ & _ & ? & ?); [done|].
    by destruct level. }
  pose proof (u8_range now). pose proof (u8_range (watchdog now s + 1)).
  rewrite recv_isr_unfold. cbv zeta.
  repeat match goal with
         | |- context [if ?b then _ else _] => destruct b
         end;
    constructor; cbn [ps2_head ps2_tail ps2_recv_buffer bitcount data last ps2state];
    auto; try lia; try (rewrite land_0xF; lia).
  - by rewrite length_insert.
  - intros b [->|Hin]%In_insert; auto.
Qed.

Lemma wf_get_data s : wf s = true -> wf (ps2_get_data s).2 = true.
Proof.
  intros Hwf. unfold ps2_get_data.
  destruct (negb _); [|done]. cbn [snd].
  apply wf_set_head; [done|]. rewrite land_0xF. lia.
Qed.

(** ** The gap check *)

(** When the low byte of the clock has grown by more than 5 since the
    previous edge the check fires, and the sample is counted as bit 1. *)
Lemma watchdog_fires now s :
  u8 now - last s > 5 -> bitcount (ps2_recv_isr now true s) = 1.
Proof.
  intros Hgap. rewrite recv_isr_unfold. cbv zeta.
  assert (Hw : u8 (watchdog now s + 1) = 1).
  { unfold watchdog. destruct (Z.gtb_spec (u8 now - last s) 5); [reflexivity|lia]. }
  rewrite Hw. reflexivity.
Qed.

(** C4 fails on the code.  Three bits into a frame, with the previous edge
    at uptime 1020 ms, an edge 6 ms later (uptime 1026, low clock byte
    wrapped from 252 to 2) does not reset the bit counter: the new bit is
    counted as the 4th of the stale frame.  Neither does an edge a full
    256 ms after an edge at 1000 ms.  An edge 6 ms after 1000 ms does. *)
Theorem watchdog_misses_wrapped_gap :
  bitcount (ps2_recv_isr (millis 1026) false (mid_frame 3 1020 ps2_reset)) = 4 /\
  bitcount (ps2_recv_isr (millis 1256) false (mid_frame 3 1000 ps2_reset)) = 4 /\
  bitcount (ps2_recv_isr (millis 1006) false (mid_frame 3 1000 ps2_reset)) = 1.
Proof. repeat split; reflexivity. Qed.

(** ** The decoder returns *)

Lemma wf_get_state_loop fuel : forall s s',
  wf s = true -> ps2_get_state_loop fuel s = Some s' -> wf s' = true.
Proof.
  induction fuel as [|fuel IH]; intros s s' Hwf Hloop.
  - cbn [ps2_get_state_loop] in Hloop.
    destruct (ps2_available s >=? 3); congruence.
  - destruct (Z_lt_ge_dec (ps2_available s) 3) as [Hlt|Hge].
    + rewrite get_state_loop_done in Hloop by done. congruence.
    + rewrite get_state_loop_step in Hloop by done.
      apply (IH (ps2_get_state_body s)); [|done].
      by apply body_progress.
Qed.

(** X1.  The indices never leave the 16-slot buffer: the reset state is
    well formed, and the interrupt handler, [ps2_get_data] and
    [ps2_get_state] all take well-formed states to well-formed states. *)
Theorem wf_invariant :
  wf ps2_reset = true /\
  forall s, wf s = true ->
    (forall now level, wf (ps2_recv_isr now level s) = true) /\
    wf (ps2_get_data s).2 = true /\
    (forall fuel r s', ps2_get_state fuel s = Some (r, s') -> wf s' = true).
Proof.
  split; [reflexivity|]. intros s Hwf. split; [|split].
  - intros now level. by apply wf_recv_isr.
  - by apply wf_get_data.
  - intros fuel r s'. unfold ps2_get_state. cbv zeta.
    destruct (ps2_get_state_loop _ _) as [s1|] eqn:Hloop; [|discriminate].
    cbn. intros [= _ <-]. eapply wf_get_state_loop; [|exact Hloop].
    apply wf_set_ps2state; [done|]. apply wf_spec in Hwf as []. by apply byte_ops.
Qed.

(** X2.  The loop of [ps2_get_state] ends after at most 13 rounds: from a
    well-formed state the call returns, leaving fewer than three bytes in
    the buffer. *)
Theorem get_state_returns (fuel : nat) (s : ps2) :
  wf s = true -> (13 <= fuel)%nat ->
  exists r s', ps2_get_state fuel s = Some (r, s') /\ ps2_available s' < 3.
Proof.
  intros Hwf Hfuel.
  destruct (get_state_terminates fuel s Hwf Hfuel) as (r & s' & E & _ & Hav).
  eauto.
Qed.

(** ** Instances *)

Lemma frame_received_witness :
  let edges := zip [1000; 1001; 1002; 1003; 1004; 1005; 1006; 1007; 1008; 1009; 1010]
                   (frame_levels 0xA5) in
  ring (recv_edges edges ps2_reset) = (0, 1, <[0%nat := 0xA5]> (replicate 16 0)) /\
  bitcount (recv_edges edges ps2_reset) = 0 /\
  ps2_available (recv_edges edges ps2_reset) = 1.
Proof.
  assert (Hfull : ~ full ps2_reset) by (cbv; discriminate).
  assert (Hgaps : gaps_within 5 1000
            [1001; 1002; 1003; 1004; 1005; 1006; 1007; 1008; 1009; 1010])
    by (cbn; lia).
  pose proof (frame_received 0xA5 ps2_reset 1000
                [1001; 1002; 1003; 1004; 1005; 1006; 1007; 1008; 1009; 1010]
                ltac:(lia) eq_refl eq_refl Hfull eq_refl Hgaps) as H.
  cbv zeta in *. tauto.
Defined.



Lemma misaligned_byte_dropped_witness :
  ps2_get_state_body (holding [0x00; 0x0B; 5; 0xFD]) =
    set_head 1 (holding [0x00; 0x0B; 5; 0xFD]) /\
  ps2_get_state 13 (holding [0x00; 0x0B; 5; 0xFD]) =
    ps2_get_state 12 (set_head 1 (holding [0x00; 0x0B; 5; 0xFD])).
Proof.
  assert (Hal : Z.land (buf_read (holding [0x00; 0x0B; 5; 0xFD]) 0) 0xC <> 0x8)
    by (cbv; discriminate).
  pose proof (misaligned_byte_dropped (holding [0x00; 0x0B; 5; 0xFD]) 12
                eq_refl ltac:(cbv; discriminate) Hal) as H.
  cbv zeta in H. tauto.
Defined.

(** C8 as stated fails.  With the bytes 0x00, 0x05, 0xFD waiting (a packet
    whose first byte is misaligned) the call leaves two of the three in the
    buffer; and with 0x00, 0x0B, 0x05, 0xFD waiting, the second and third
    byte of that packet are decoded as the status and dx of an accepted
    packet and put both button flags and the "right" flag into the result. *)
Lemma misaligned_packet_counterexample :
  ps2_available <$> (snd <$> ps2_get_state 13 (holding [0x00; 0x05; 0xFD])) = Some 2 /\
  fst <$> ps2_get_state 13 (holding [0x00; 0x0B; 0x05; 0xFD]) = Some 0xD4 /\
  Z.land 0xD4 (Z.lor CDTV_CODE_MOUSE_A CDTV_CODE_MOUSE_B) = 0xC0 /\
  Z.land 0xD4 CDTV_CODE_MOUSE_RIGHT = CDTV_CODE_MOUSE_RIGHT.
Proof. repeat split; reflexivity. Qed.

Lemma get_data_on_empty_buffer_witness :
  ps2_get_data ps2_reset = (0, ps2_reset).
Proof. apply (proj1 get_data_on_empty_buffer). reflexivity. Defined.

Lemma ring_capacity_and_overflow_witness :
  let s := mid_frame 8 1000 (holding [1; 2; 3; 4; 5; 6; 7; 8; 9; 10; 11; 12; 13; 14; 15]) in
  ps2_available s = 15 /\
  bitcount (ps2_recv_isr (millis 1001) true s) = 9 /\
  ring (ps2_recv_isr (millis 1001) true s) = ring s /\
  buf_read (ps2_recv_isr (millis 1001) true s) 0 = 1.
Proof.
  cbv zeta.
  pose proof (proj2 (ring_capacity_and_overflow
     (mid_frame 8 1000 (holding [1; 2; 3; 4; 5; 6; 7; 8; 9; 10; 11; 12; 13; 14; 15])))
     eq_refl (millis 1001) true) as [H1 H2].
  split; [reflexivity|]. split; [reflexivity|]. split; [exact H1|exact H2].
Defined.

(** Fifteen misaligned bytes: all 13 rounds are needed. *)
Lemma get_state_returns_witness :
  exists r s', ps2_get_state 13 (holding (replicate 15 0)) = Some (r, s') /\
               ps2_available s' < 3.
Proof.
  apply (get_state_returns 13 (holding (replicate 15 0))); [reflexivity|lia].
Defined.

Lemma get_state_needs_13_rounds :
  ps2_get_state 12 (holding (replicate 15 0)) = None.
Proof. reflexivity. Qed.

Lemma frame_after_gap_witness :
  let edges := zip [1006; 1007; 1008; 1009; 1010; 1011; 1012; 1013; 1014; 1015; 1016]
                   (frame_levels 0x5A) in
  ring (recv_edges edges (mid_frame 3 1000 ps2_reset)) =
    (0, 1, <[0%nat := 0x5A]> (replicate 16 0)) /\
  bitcount (recv_edges edges (mid_frame 3 1000 ps2_reset)) = 0.
Proof.
  assert (Hfull : ~ full (mid_frame 3 1000 ps2_reset)) by (cbv; discriminate).
  assert (Hgaps : gaps_within 5 1006
            [1007; 1008; 1009; 1010; 1011; 1012; 1013; 1014; 1015; 1016])
    by (cbn; lia).
  exact (frame_after_gap 0x5A (mid_frame 3 1000 ps2_reset) 1006
           [1007; 1008; 1009; 1010; 1011; 1012; 1013; 1014; 1015; 1016]
           ltac:(lia) eq_refl ltac:(cbv; reflexivity) Hfull eq_refl Hgaps).
Defined.

End PS2Facts.

(** * The command writer always returns *)

Module WriterFacts.
Import Writer.

(** ** Composition rules for bounded computations *)

Lemma returns_ret {A} (a : A) : returns_within 0 (mret a).
Proof. intros w. exists a, w. split; [reflexivity|lia]. Qed.

Lemma returns_bind {A B} n k (m : M A) (f : A -> M B) :
  returns_within n m -> (forall a, returns_within k (f a)) ->
  returns_within (n + k) (m ≫= f).
Proof.
  intros Hm Hf w. destruct (Hm w) as (a & w1 & E1 & H1).
  destruct (Hf a w1) as (b & w2 & E2 & H2).
  exists b, w2. split; [|lia].
  unfold mbind, M_bind. rewrite E1. exact E2.
Qed.

Lemma returns_weaken {A} n k (m : M A) :
  (n <= k) -> returns_within n m -> returns_within k m.
Proof.
  intros Hle Hm w. destruct (Hm w) as (a & w' & E & H).
  exists a, w'. split; [done|lia].
Qed.

Lemma returns_seq {A B} n k (m : M A) (m' : M B) :
  returns_within n m -> returns_within k m' ->
  returns_within (n + k) (m;; m').
Proof. intros Hm Hm'. apply returns_bind; [done|]. intros _. exact Hm'. Qed.

(** ** The primitives *)

Lemma returns_pinMode pin o : returns_within 0 (pinMode pin o).
Proof. intros w. eexists _, _. split; [reflexivity|]. cbn. lia. Qed.

Lemma returns_digitalWrite pin v : returns_within 0 (digitalWrite pin v).
Proof. intros w. eexists _, _. split; [reflexivity|]. cbn. lia. Qed.

Lemma returns_delayMicroseconds us : returns_within 0 (delayMicroseconds us).
Proof. intros w. eexists _, _. split; [reflexivity|]. cbn. lia. Qed.

Lemma returns_set_EIMSK f : returns_within 0 (set_EIMSK f).
Proof. intros w. eexists _, _. split; [reflexivity|]. cbn. lia. Qed.

Lemma returns_set_EIFR f : returns_within 0 (set_EIFR f).
Proof. intros w. eexists _, _. split; [reflexivity|]. cbn. lia. Qed.

Section Device.
Variable line : Z -> Z -> bool.

Lemma returns_digitalRead pin : returns_within 1 (digitalRead line pin).
Proof. intros w. eexists _, _. split; [reflexivity|]. cbn. lia. Qed.

Lemma returns_weak_pullup pin : returns_within 0 (weak_pullup pin).
Proof. apply (returns_seq 0 0); [apply returns_pinMode|apply returns_digitalWrite]. Qed.

Lemma returns_pull_down pin : returns_within 0 (pull_down pin).
Proof. apply (returns_seq 0 0); [apply returns_digitalWrite|apply returns_pinMode]. Qed.

(** ** The busy-wait *)

(** With [cnt] escapes left the loop samples the pin at most [cnt + 1]
    times, whatever the line does, provided the model's fuel covers that. *)
Lemma returns_await_loop n pin state cnt :
  0 <= cnt < 65536 -> cnt < Z.of_nat n ->
  returns_within (cnt + 1) (await_loop line n pin state cnt).
Proof.
  revert cnt. induction n as [|n IH]; intros cnt Hcnt Hn; [lia|].
  cbn [await_loop].
  replace (cnt + 1) with (1 + cnt) by lia.
  apply returns_bind; [apply returns_digitalRead|].
  intros v. destruct (negb (eqb v state)).
  - destruct (Z.eqb_spec cnt 0) as [->|Hne]; cbn [negb].
    + apply returns_ret.
    + assert (Hu : u16 (cnt - 1) = cnt - 1) by (unfold u16; lia).
      rewrite Hu.
      eapply returns_weaken; [|apply IH; lia]. lia.
  - eapply returns_weaken; [|apply returns_ret]. lia.
Qed.

Variable fuel : nat.
Hypothesis enough_fuel : 0x1000 <= Z.of_nat fuel.

Lemma returns_await_pin_state pin state :
  returns_within 0x1000 (await_pin_state line fuel pin state).
Proof.
  unfold await_pin_state. cbv zeta.
  eapply returns_weaken; [|apply returns_await_loop; lia]. lia.
Qed.

Lemma returns_write_bits n data parity :
  returns_within (Z.of_nat n * (2 * 0x1000)) (write_bits line fuel n data parity).
Proof.
  revert data parity. induction n as [|n IH]; intros data parity.
  - apply returns_ret.
  - cbn [write_bits].
    replace (Z.of_nat (S n) * (2 * 0x1000))
      with (0 + (0x1000 + (0x1000 + Z.of_nat n * (2 * 0x1000)))) by lia.
    apply returns_seq.
    { destruct (negb _); [apply returns_weak_pullup|apply returns_pull_down]. }
    apply returns_seq; [apply returns_await_pin_state|].
    apply returns_seq; [apply returns_await_pin_state|].
    apply IH.
Qed.

Ltac step0 lem := apply (returns_seq 0); [apply lem|].
Ltac stepw n :=
  apply (returns_seq 0x1000 n); [apply returns_await_pin_state; assumption|].

Lemma returns_ps2_write_byte data :
  returns_within (24 * 0x1000) (ps2_write_byte line fuel data).
Proof.
  unfold ps2_write_byte. cbv zeta.
  step0 returns_set_EIMSK. step0 returns_pull_down.
  step0 returns_delayMicroseconds. step0 returns_pull_down.
  step0 returns_delayMicroseconds. step0 returns_weak_pullup.
  step0 returns_delayMicroseconds. 
  stepw (23 * 0x1000). stepw (22 * 0x1000).
  apply (returns_bind (Z.of_nat 8 * (2 * 0x1000)) (6 * 0x1000)); [apply returns_write_bits|].
  intros [data' parity'].
  apply (returns_seq 0).
  { destruct (negb _); [apply returns_weak_pullup|apply returns_pull_down]. }
  stepw (5 * 0x1000). stepw (4 * 0x1000).
  step0 returns_weak_pullup. 
  stepw (3 * 0x1000). stepw (2 * 0x1000).
  stepw (1 * 0x1000).
  apply (returns_seq 0x1000 0); [apply returns_await_pin_state|].
  apply (returns_seq 0 0); [apply returns_set_EIFR|apply returns_set_EIMSK].
Qed.

End Device.

(** C9.  Whatever the lines do, each busy-wait of [await_pin_state] gives
    up after at most 0x1000 samples of the pin (the escape count 0xFFF plus
    the first sample), and [ps2_write_byte], which waits 24 times, returns
    after at most 24 * 0x1000 samples. *)
Theorem write_byte_returns (line : Z -> Z -> bool) (fuel : nat) (data : Z) :
  0x1000 <= Z.of_nat fuel ->
  (forall pin state, returns_within 0x1000 (await_pin_state line fuel pin state)) /\
  returns_within (24 * 0x1000) (ps2_write_byte line fuel data).
Proof.
  intros Hfuel. split.
  - intros pin state. by apply returns_await_pin_state.
  - by apply returns_ps2_write_byte.
Qed.

(** No device attached: both lines stay high. *)
Lemma write_byte_returns_witness :
  exists w', ps2_write_byte (fun _ _ => true) 4096 0xF4 hw_reset = Some (tt, w') /\
             (reads w' <= 24 * 0x1000).
Proof.
  destruct (proj2 (write_byte_returns (fun _ _ => true) 4096 0xF4 ltac:(lia)) hw_reset)
    as ([] & w' & E & H).
  exists w'. split; [exact E|]. cbn in H. lia.
Defined.

End WriterFacts.

(** * The infrared frames *)

Module IRFacts.
Import IR.

(** ** Bit tests *)

Lemma land_1 x : Z.land x 0x1 = x mod 2.
Proof. exact (Z.land_ones x 1 ltac:(lia)). Qed.

(** The test of line 343 reads bit [ss] of [data]. *)
Lemma bit_test d ss :
  0 <= ss -> negb (Z.land (Z.shiftr d ss) 0x1 =? 0) = Z.testbit d ss.
Proof.
  intros Hss. rewrite land_1.
  rewrite <- (Z.add_0_l ss) at 2. rewrite <- Z.shiftr_spec by lia.
  rewrite Z.bit0_odd, Zodd_mod.
  destruct (Z.eqb_spec (Z.shiftr d ss mod 2) 0) as [->|]; cbn [negb]; symmetry.
  - reflexivity.
  - apply Z.eqb_eq. lia.
Qed.

Lemma testbit_u8 x i : 0 <= i < 8 -> Z.testbit (u8 x) i = Z.testbit x i.
Proof. intros Hi. unfold u8. exact (Z.mod_pow2_bits_low x 8 i ltac:(lia)). Qed.

Lemma testbit_u16 x i : 0 <= i < 16 -> Z.testbit (u16 x) i = Z.testbit x i.
Proof. intros Hi. unfold u16. exact (Z.mod_pow2_bits_low x 16 i ltac:(lia)). Qed.

Lemma testbit_complement d i :
  0 <= i < 16 -> Z.testbit (u16 (Z.lnot d)) i = negb (Z.testbit d i).
Proof. intros Hi. rewrite testbit_u16 by done. apply Z.lnot_spec. lia. Qed.

(** ** Starting and stopping the timer *)

Lemma timer_running_bit T :
  Z.testbit T CS11 = true -> negb (Z.land T 0x7 =? 0) = true.
Proof.
  intros Hb. apply negb_true_iff, Z.eqb_neq. intros H0.
  assert (Hc : Z.testbit (Z.land T 0x7) CS11 = true)
    by (rewrite Z.land_spec, Hb; reflexivity).
  rewrite H0 in Hc. discriminate Hc.
Qed.

Lemma timer_started T :
  negb (Z.land (u8 (Z.lor T (Z.shiftl 1 CS11))) 0x7 =? 0) = true.
Proof.
  apply timer_running_bit. rewrite testbit_u8 by (cbv; split; [discriminate|reflexivity]).
  rewrite Z.lor_spec. apply orb_true_r.
Qed.

Lemma timer_stopped T :
  Z.testbit T CS10 = false -> Z.testbit T CS12 = false ->
  negb (Z.land (u8 (Z.land T (Z.lnot (Z.shiftl 1 CS11)))) 0x7 =? 0) = false.
Proof.
  intros H0 H2. apply negb_false_iff, Z.eqb_eq, Z.bits_inj'. intros n Hn.
  rewrite Z.bits_0, Z.land_spec.
  destruct (Z_lt_ge_dec n 3) as [Hlt|Hge].
  - rewrite testbit_u8 by lia. rewrite Z.land_spec.
    assert (Hcases : n = 0 \/ n = 1 \/ n = 2) by lia.
    destruct Hcases as [-> | [-> | ->]].
    + unfold CS10 in H0. rewrite H0. reflexivity.
    + rewrite andb_false_r. reflexivity.
    + unfold CS12 in H2. rewrite H2. reflexivity.
  - replace (Z.testbit 0x7 n) with false; [apply andb_false_r|].
    symmetry. change 0x7 with (Z.ones 3). apply Z.ones_spec_high. lia.
Qed.

(** ** The handler, state by state *)

Ltac unfold_states :=
  unfold ir_repeat, ir_stop, ir_end_pulse, ir_transmit, ir_start, ir_idle in *.

Ltac tx_simpl :=
  cbn [IR_ENABLE IR_DISABLE set_cdtv_ir_code set_tx_state set_data set_OCR1A
       set_TCNT1 set_TCCR1B set_IRDATAPIN set_SREG_I
       cdtv_ir_code tx_state data OCR1A TCNT1 TCCR1B IRDATAPIN SREG_I].

Ltac test_false a b :=
  let H := fresh in
  assert (H : (a =? b) = false) by (apply Z.eqb_neq; lia); rewrite H; clear H.

Lemma isr_at_start s :
  tx_state s = ir_start ->
  TIMER1_COMPA_vect s =
    Tx (cdtv_ir_code s) ir_transmit (cdtv_ir_code s) 9000 (TCNT1 s) (TCCR1B s)
       false (SREG_I s).
Proof.
  intros Hs. destruct s as [c st d o tc tb pin sr].
  cbn [tx_state] in Hs. subst st. reflexivity.
Qed.

(** An even state of the bit phase, and [ir_end_pulse] after it: the
    carrier goes on for 400 us. *)
Lemma isr_at_pulse s i :
  tx_state s = ir_transmit + 2 * i -> 0 <= i <= 24 ->
  TIMER1_COMPA_vect s =
    Tx (cdtv_ir_code s) (tx_state s + 1) (data s) 800 (TCNT1 s) (TCCR1B s)
       true (SREG_I s).
Proof.
  intros Hs Hi. destruct s as [c st d o tc tb pin sr].
  cbn [tx_state] in Hs. subst st.
  unfold TIMER1_COMPA_vect. unfold_states. tx_simpl.
  test_false (2 + 2 * i) 1.
  assert (Hu : u8 (2 + 2 * i + 1) = 2 + 2 * i + 1) by (unfold u8; lia).
  destruct (Z.eq_dec i 24) as [->|Hne].
  - reflexivity.
  - assert (H1 : (2 + 2 * i >=? 2) = true) by (apply Z.geb_le; lia).
    assert (H2 : (2 + 2 * i <? 2 + 48) = true) by (apply Z.ltb_lt; lia).
    assert (H3 : (Z.land (2 + 2 * i) 0x1 =? 0) = true)
      by (apply Z.eqb_eq; rewrite land_1; lia).
    rewrite H1, H2. cbn [andb]. rewrite H3. cbn [negb]. tx_simpl.
    rewrite Hu. reflexivity.
Qed.

(** An odd state of the bit phase: the carrier goes off for the pause
    that encodes bit [i]; the shift register is inverted on reaching the
    13th bit. *)
Lemma isr_at_gap s i :
  tx_state s = ir_transmit + 1 + 2 * i -> 0 <= i < 24 ->
  let d := if i =? 12 then u16 (Z.lnot (data s)) else data s in
  let ss := if i >=? 12 then i - 12 else i in
  TIMER1_COMPA_vect s =
    Tx (cdtv_ir_code s) (tx_state s + 1) d
       (if Z.testbit d ss then 2400 else 800) (TCNT1 s) (TCCR1B s)
       false (SREG_I s).
Proof.
  intros Hs Hi. cbv zeta. destruct s as [c st d o tc tb pin sr].
  cbn [tx_state] in Hs. subst st.
  unfold TIMER1_COMPA_vect. unfold_states. tx_simpl.
  test_false (2 + 1 + 2 * i) 1.
  assert (Hu : u8 (2 + 1 + 2 * i + 1) = 2 + 1 + 2 * i + 1) by (unfold u8; lia).
  assert (H1 : (2 + 1 + 2 * i >=? 2) = true) by (apply Z.geb_le; lia).
  assert (H2 : (2 + 1 + 2 * i <? 2 + 48) = true) by (apply Z.ltb_lt; lia).
  assert (H3 : (Z.land (2 + 1 + 2 * i) 0x1 =? 0) = false)
    by (apply Z.eqb_neq; rewrite land_1; lia).
  assert (H4 : (2 + 1 + 2 * i =? 2 + 25) = (i =? 12)).
  { destruct (Z.eqb_spec i 12); [apply Z.eqb_eq|apply Z.eqb_neq]; lia. }
  assert (H5 : u8 (Z.shiftr (2 + 1 + 2 * i - 2) 1) = i).
  { rewrite Z.shiftr_div_pow2 by lia. unfold u8. change (2 ^ 1) with 2. lia. }
  rewrite H1, H2. cbn [andb]. rewrite H3. cbn [negb]. tx_simpl.
  rewrite H4.
  assert (H6 : (if i >=? 12 then u8 (i - 12) else i) = (if i >=? 12 then i - 12 else i)).
  { destruct (Z.geb_spec i 12); [unfold u8; lia|reflexivity]. }
  destruct (i =? 12); tx_simpl; rewrite H5, H6, Hu, bit_test;
    first [reflexivity | destruct (Z.geb_spec i 12); lia].
Qed.

Lemma isr_at_stop s :
  tx_state s = ir_stop ->
  TIMER1_COMPA_vect s =
    Tx (cdtv_ir_code s) ir_idle (data s) (OCR1A s) (TCNT1 s)
       (u8 (Z.land (TCCR1B s) (Z.lnot (Z.shiftl 1 CS11)))) false (SREG_I s).
Proof.
  intros Hs. destruct s as [c st d o tc tb pin sr].
  cbn [tx_state] in Hs. subst st. reflexivity.
Qed.

Lemma isr_at_repeat s :
  tx_state s = ir_repeat ->
  TIMER1_COMPA_vect s =
    Tx (cdtv_ir_code s) ir_end_pulse (data s) 4200 (TCNT1 s) (TCCR1B s)
       false (SREG_I s).
Proof.
  intros Hs. destruct s as [c st d o tc tb pin sr].
  cbn [tx_state] in Hs. subst st. reflexivity.
Qed.

(** Idle: the handler does nothing. *)
Lemma isr_at_idle s :
  tx_state s = ir_idle -> TIMER1_COMPA_vect s = s.
Proof.
  intros Hs. destruct s as [c st d o tc tb pin sr].
  cbn [tx_state] in Hs. subst st. reflexivity.
Qed.

(** ** Unfolding the pulse train *)

Lemma pulse_train_running fuel s :
  timer_running s = true ->
  pulse_train (S fuel) s =
    '(l, s') ← pulse_train fuel (TIMER1_COMPA_vect s);
    Some (current_phase s :: l, s').
Proof. intros Hr. cbn [pulse_train]. rewrite Hr. reflexivity. Qed.

Lemma pulse_train_stopped fuel s :
  timer_running s = false -> pulse_train fuel s = Some ([], s).
Proof. intros Hr. destruct fuel; cbn [pulse_train]; rewrite Hr; reflexivity. Qed.

(** The bit the pause of cell [i] encodes. *)
Lemma gap_bit code i :
  0 <= i < 24 ->
  Z.testbit (if i =? 12 then u16 (Z.lnot (register_at code i))
             else register_at code i)
            (if i >=? 12 then i - 12 else i) = sent_bit code i.
Proof.
  intros Hi. unfold sent_bit, register_at.
  destruct (Z.eqb_spec i 12) as [->|Hne].
  - cbn [Z.leb Z.geb Z.ltb Z.compare Pos.compare Pos.compare_cont Z.sub Z.opp
         Z.add Z.pos_sub]. apply testbit_complement. lia.
  - destruct (Z.leb_spec i 12), (Z.ltb_spec i 12), (Z.geb_spec i 12); try lia.
    + reflexivity.
    + apply testbit_complement. lia.
Qed.

Lemma train_from_bit code n : forall i s k,
  i + Z.of_nat n = 24 -> 0 <= i ->
  tx_state s = ir_transmit + 1 + 2 * i ->
  current_phase s = carrier 400 ->
  timer_running s = true -> only_cs11 s ->
  data s = register_at code i ->
  exists s',
    pulse_train (2 * n + 1 + k) s = Some (cells_from code i n, s') /\
    tx_state s' = ir_idle /\ timer_running s' = false /\
    IRDATAPIN s' = false.
Proof.
  induction n as [|n IH]; intros i s k Hi Hi0 Hs Hph Hrun Hcs Hd.
  - assert (i = 24) as -> by lia.
    change (2 * 0 + 1 + k)%nat with (S k).
    rewrite pulse_train_running by done.
    rewrite isr_at_stop by (rewrite Hs; reflexivity).
    rewrite pulse_train_stopped by (apply timer_stopped; apply Hcs).
    cbn. rewrite Hph. eexists. split; [reflexivity|].
    split; [reflexivity|]. split; [|reflexivity].
    apply timer_stopped; apply Hcs.
  - replace (2 * S n + 1 + k)%nat with (S (S (2 * n + 1 + k))) by lia.
    rewrite pulse_train_running by done.
    rewrite (isr_at_gap s i) by (done || lia). cbv zeta.
    set (s1 := Tx _ _ _ _ _ _ _ _).
    rewrite pulse_train_running by (exact Hrun).
    rewrite (isr_at_pulse s1 (i + 1)) by (subst s1; tx_simpl; unfold_states; lia).
    set (s2 := Tx _ _ _ _ _ _ _ _).
    destruct (IH (i + 1) s2 k) as (s' & E & Hidle & Hstop & Hoff);
      try (subst s2 s1; tx_simpl; unfold_states; done || lia).
    + subst s2 s1. tx_simpl. rewrite Hd. unfold register_at.
      destruct (Z.eqb_spec i 12) as [->|]; [reflexivity|].
      destruct (Z.leb_spec i 12), (Z.leb_spec (i + 1) 12); (reflexivity || lia).
    + rewrite E. cbn. exists s'. split; [|done].
      rewrite Hph. cbn [cells_from bit_cell app].
      do 4 f_equal. subst s1. unfold current_phase. tx_simpl.
      unfold silence. f_equal. rewrite Hd, gap_bit by lia.
      destruct (sent_bit code i); reflexivity.
Qed.

Lemma cells_from_frame code :
  [carrier 9000; silence 4500] ++ cells_from code 0 24 = code_frame code.
Proof. reflexivity. Qed.

Lemma send_code_state code s :
  0 <= code < 65536 ->
  cdtv_send_code code s =
    Tx code ir_start (data s) 18000 0
       (u8 (Z.lor (TCCR1B s) (Z.shiftl 1 CS11))) true (SREG_I s).
Proof.
  intros Hc. assert (Hu : u16 code = code) by (unfold u16; lia).
  destruct s as [c st d o tc tb pin sr].
  unfold cdtv_send_code, run, cdtv_send_code_body.
  cbn [fold_left exec]. rewrite Hu. reflexivity.
Qed.

Lemma send_repeat_state s :
  cdtv_send_repeat s =
    Tx (cdtv_ir_code s) ir_repeat (data s) 18000 0
       (u8 (Z.lor (TCCR1B s) (Z.shiftl 1 CS11))) true (SREG_I s).
Proof. reflexivity. Qed.

Lemma only_cs11_armed T :
  Z.testbit T CS10 = false -> Z.testbit T CS12 = false ->
  Z.testbit (u8 (Z.lor T (Z.shiftl 1 CS11))) CS10 = false /\
  Z.testbit (u8 (Z.lor T (Z.shiftl 1 CS11))) CS12 = false.
Proof.
  intros H0 H2.
  rewrite !testbit_u8, !Z.lor_spec, H0, H2 by (cbv; split; [discriminate|reflexivity]).
  split; reflexivity.
Qed.

(** The full code frame, from any state. *)
Lemma code_train code s k :
  0 <= code < 65536 -> only_cs11 s ->
  exists s',
    pulse_train (51 + k) (cdtv_send_code code s) = Some (code_frame code, s') /\
    tx_state s' = ir_idle /\ timer_running s' = false /\ IRDATAPIN s' = false.
Proof.
  intros Hc [H0 H2]. rewrite send_code_state by done.
  change (51 + k)%nat with (S (S (2 * 24 + 1 + k))).
  set (s0 := Tx _ _ _ _ _ _ _ _).
  assert (Hrun : forall c st d o tc pin sr,
    timer_running (Tx c st d o tc (TCCR1B s0) pin sr) = true)
    by (intros; apply timer_started).
  rewrite pulse_train_running by apply Hrun.
  rewrite isr_at_start by reflexivity.
  match goal with |- context [pulse_train _ ?x] => set (s1 := x) end.
  rewrite pulse_train_running by apply Hrun.
  rewrite (isr_at_pulse s1 0) by (reflexivity || lia).
  match goal with |- context [pulse_train _ ?x] => set (s2 := x) end.
  destruct (train_from_bit code 24 0 s2 k) as (s' & E & Hrest);
    try (reflexivity || lia).
  - apply Hrun.
  - apply only_cs11_armed; assumption.
  - rewrite E. exists s'. split; [|exact Hrest]. reflexivity.
Qed.

(** The repeat frame, from any state. *)
Lemma repeat_train s k :
  only_cs11 s ->
  exists s',
    pulse_train (3 + k) (cdtv_send_repeat s) = Some (repeat_frame, s') /\
    tx_state s' = ir_idle /\ timer_running s' = false /\ IRDATAPIN s' = false.
Proof.
  intros [H0 H2]. rewrite send_repeat_state.
  change (3 + k)%nat with (S (S (S k))).
  set (s0 := Tx _ _ _ _ _ _ _ _).
  assert (Hrun : forall c st d o tc pin sr,
    timer_running (Tx c st d o tc (TCCR1B s0) pin sr) = true)
    by (intros; apply timer_started).
  assert (Hcs : only_cs11 s0) by (apply only_cs11_armed; assumption).
  rewrite pulse_train_running by apply Hrun.
  rewrite isr_at_repeat by reflexivity.
  match goal with |- context [pulse_train _ ?x] => set (s1 := x) end.
  rewrite pulse_train_running by apply Hrun.
  rewrite (isr_at_pulse s1 24) by (reflexivity || lia).
  match goal with |- context [pulse_train _ ?x] => set (s2 := x) end.
  rewrite pulse_train_running by apply Hrun.
  rewrite (isr_at_stop s2) by reflexivity.
  rewrite pulse_train_stopped by (apply timer_stopped; apply Hcs).
  eexists. split; [reflexivity|]. split; [reflexivity|]. split; [|reflexivity].
  apply timer_stopped; apply Hcs.
Qed.

Lemma fuel_split n fuel : (n <= fuel)%nat -> exists k, fuel = (n + k)%nat.
Proof. intros H. exists (fuel - n)%nat. lia. Qed.




Lemma arming_keeps_SREG_I body s :
  Forall (fun c => c <> Do_noInterrupts /\ c <> Do_interrupts) body ->
  SREG_I (run body s) = SREG_I s.
Proof.
  unfold run. intros Hall. revert s.
  induction Hall as [|c body [Hc1 Hc2] _ IH]; intros s; [reflexivity|].
  cbn [fold_left]. rewrite IH. destruct c; done.
Qed.

(** C7, as the code has it.  Arming a code or a repeat, from any state and
    so also in the middle of a frame, sets the phase to [ir_start]
    (respectively [ir_repeat]) and the timer counter to 0 without masking
    interrupts at any point of the sequence; when no compare interrupt
    falls inside the sequence, what is emitted from then on is exactly the
    frame of the new request. *)
Theorem arming_supersedes (code : Z) (s : tx) (fuel : nat) :
  0 <= code < 4096 -> only_cs11 s -> (51 <= fuel)%nat ->
  (tx_state (cdtv_send_code code s) = ir_start /\
   TCNT1 (cdtv_send_code code s) = 0 /\
   fst <$> pulse_train fuel (cdtv_send_code code s) = Some (code_frame code)) /\
  (tx_state (cdtv_send_repeat s) = ir_repeat /\
   TCNT1 (cdtv_send_repeat s) = 0 /\
   fst <$> pulse_train fuel (cdtv_send_repeat s) = Some repeat_frame) /\
  (forall k, SREG_I (run (take k (cdtv_send_code_body code)) s) = SREG_I s) /\
  (forall k, SREG_I (run (take k cdtv_send_repeat_body) s) = SREG_I s).
Proof.
  intros Hc Hcs Hfuel.
  destruct (fuel_split 51 fuel Hfuel) as [k ->].
  destruct (code_train code s k ltac:(lia) Hcs) as (s1 & E1 & _).
  destruct (repeat_train s (48 + k) Hcs) as (s2 & E2 & _).
  change (3 + (48 + k))%nat with (51 + k)%nat in E2.
  rewrite E1, E2. rewrite send_code_state by lia.
  repeat split; intros k'; apply arming_keeps_SREG_I, Forall_take;
    repeat constructor; discriminate.
Qed.

(** ** Instances *)

Lemma tx_idle_state :
  tx_state tx_idle = ir_idle /\ timer_running tx_idle = false /\
  TCCR1B tx_idle = Z.shiftl 1 WGM12 /\ IRDATAPIN tx_idle = false /\
  SREG_I tx_idle = true.
Proof. repeat split; reflexivity. Qed.



Lemma arming_supersedes_witness :
  tx_state (cdtv_send_code 0x021 tx_midflight) = ir_start /\
  fst <$> pulse_train 51 (cdtv_send_code 0x021 tx_midflight) =
    Some (code_frame 0x021) /\
  tx_state (cdtv_send_repeat tx_midflight) = ir_repeat /\
  fst <$> pulse_train 51 (cdtv_send_repeat tx_midflight) = Some repeat_frame.
Proof.
  destruct (arming_supersedes 0x021 tx_midflight 51 ltac:(lia)
              ltac:(split; reflexivity) ltac:(lia))
    as ((H1 & _ & H2) & (H3 & _ & H4) & _).
  repeat split; assumption.
Defined.

(** C7 as stated fails.  While the frame of code 0x004 is on the air,
    [cdtv_send_code(0x021)] runs with interrupts enabled at each of its
    statements.  A compare match right after [tx_state=ir_start] makes the
    handler consume the start state before the timer is reprogrammed: the
    sequence ends in [ir_transmit], not [ir_start], and the 9 ms of carrier
    are followed by the first bit pulse without the 4.5 ms of silence.
    [cdtv_send_repeat] starts its frame in [ir_repeat], not [ir_start]. *)
Lemma arming_not_atomic :
  forallb (fun k => SREG_I (run (take k (cdtv_send_code_body 0x021)) tx_midflight))
          (seq 0 7) = true /\
  tx_state (run_preempted 2 (cdtv_send_code_body 0x021) tx_midflight) = ir_transmit /\
  fst <$> pulse_train 51 (run_preempted 2 (cdtv_send_code_body 0x021) tx_midflight) =
    Some (carrier 9000 :: drop 2 (code_frame 0x021)) /\
  code_frame 0x021 !! 1%nat = Some (silence 4500) /\
  tx_state (cdtv_send_repeat tx_midflight) = ir_repeat.
Proof. repeat split; vm_compute; reflexivity. Qed.

End IRFacts.
